(** * XLM-RoBERTa tokenizer: vocabulary remapping and sequence construction

    A shallow embedding of [src/transformers/tokenization_xlm_roberta.py].
    Python integers are [Z], Python lists are [list], a Python [dict] is an
    insertion-ordered association list, a raised exception is the [Raise]
    branch of [result], and the file system and the logger touched by
    [save_vocabulary] are an explicit [World] that is passed through. *)

From Stdlib Require Import ZArith List Ascii String Bool Lia.
Import ListNotations.

Open Scope Z_scope.

(** ** Python values *)

Inductive exn : Type :=
| ValueError (msg : string)
| IndexError (msg : string)
| OSError (msg : string).

Inductive result (A : Type) : Type :=
| Ok (a : A)
| Raise (e : exn).

Arguments Ok {A} a.
Arguments Raise {A} e.

(** [l * n] on a Python list: [n] copies of [l], one after the other. *)
Fixpoint list_mul {A : Type} (n : nat) (l : list A) : list A :=
  match n with
  | O => []
  | S n' => l ++ list_mul n' l
  end.

(** ** Python dictionaries

    Insertion-ordered: assigning to a key that is present updates the value
    in place, assigning to a new key appends the entry. *)
Module PyDict.
Section Dict.
Context {K V : Type}.
Variable keqb : K -> K -> bool.

Definition dict : Type := list (K * V).

Fixpoint get (d : dict) (k : K) : option V :=
  match d with
  | [] => None
  | (k', v) :: d' => if keqb k k' then Some v else get d' k
  end.

Definition contains (d : dict) (k : K) : bool :=
  match get d k with
  | Some _ => true
  | None => false
  end.

Fixpoint set (d : dict) (k : K) (v : V) : dict :=
  match d with
  | [] => [(k, v)]
  | (k', v') :: d' =>
      if keqb k k' then (k', v) :: d' else (k', v') :: set d' k v
  end.

Definition len (d : dict) : Z := Z.of_nat (List.length d).

Definition items (d : dict) : list (K * V) := d.
End Dict.

(** [{v: k for k, v in d.items()}] *)
Definition invert {K V : Type} (veqb : V -> V -> bool) (d : @dict K V)
  : @dict V K :=
  fold_left (fun acc kv => set veqb acc (snd kv) (fst kv)) (items d) [].
End PyDict.

(** ** The segmentation engine

    [sentencepiece.SentencePieceProcessor] is an external library; the
    remapping layer uses its length, [PieceToId] and [IdToPiece].  It is
    taken as a record of these operations; [unk_id] is the local id of its
    unknown placeholder. *)
Record SentencePieceProcessor : Type := {
  sp_size : nat;
  PieceToId : string -> Z;
  IdToPiece : Z -> result string;
  unk_id : Z
}.

(** [len(sp_model)] *)
Definition sp_len (sp : SentencePieceProcessor) : Z := Z.of_nat (sp_size sp).

(** The engine's interface contract: [IdToPiece] is defined exactly on
    [0 .. len-1], [PieceToId] inverts it on the pieces of the vocabulary
    and answers the unknown placeholder's id for every other string. *)
Record engine_ok (sp : SentencePieceProcessor) : Prop := {
  id_range : forall k, (exists p, IdToPiece sp k = Ok p) <-> 0 <= k < sp_len sp;
  piece_id : forall k p, IdToPiece sp k = Ok p -> PieceToId sp p = k;
  unknown_piece :
    forall p, (forall k, IdToPiece sp k <> Ok p) -> PieceToId sp p = unk_id sp
}.

(** The alignment the constructor's comment asks of the two vocabularies:
    the engine starts with ['<unk>'], ['<s>'], ['</s>'], and every later
    slot holds a "real" token, none of the strings of the fairseq table. *)
Definition fairseq_aligned (sp : SentencePieceProcessor) : Prop :=
  IdToPiece sp 0 = Ok "<unk>"%string /\
  IdToPiece sp 1 = Ok "<s>"%string /\
  IdToPiece sp 2 = Ok "</s>"%string /\
  forall k p, 3 <= k -> IdToPiece sp k = Ok p ->
    ~ In p ["<s>"; "<pad>"; "</s>"; "<unk>"; "<mask>"]%string.

(** ** The tokenizer *)

(** Keyword arguments of the constructor, with their defaults. *)
Record special_tokens : Type := {
  bos_token : string;
  eos_token : string;
  sep_token : string;
  cls_token : string;
  unk_token : string;
  pad_token : string;
  mask_token : string
}.

Definition default_tokens : special_tokens := {|
  bos_token := "<s>";
  eos_token := "</s>";
  sep_token := "</s>";
  cls_token := "<s>";
  unk_token := "<unk>";
  pad_token := "<pad>";
  mask_token := "<mask>"
|}.

Definition VOCAB_FILES_NAMES_vocab_file : string := "sentencepiece.bpe.model".

Record XLMRobertaTokenizer : Type := {
  tokens : special_tokens;
  max_len : Z;
  max_len_single_sentence : Z;
  max_len_sentences_pair : Z;
  sp_model : SentencePieceProcessor;
  vocab_file : string;
  fairseq_tokens_to_ids : @PyDict.dict string Z;
  fairseq_offset : Z;
  fairseq_ids_to_tokens : @PyDict.dict Z string
}.

(** [__init__]; [sp] is the processor after [Load(str(vocab_file))]. *)
Definition __init__ (sp : SentencePieceProcessor) (vocab_file : string)
    (kw : special_tokens) : XLMRobertaTokenizer :=
  let max_len := 512 in
  let t2i0 : @PyDict.dict string Z :=
    [("<s>"%string, 0); ("<pad>"%string, 1); ("</s>"%string, 2);
     ("<unk>"%string, 3)] in
  let t2i := PyDict.set String.eqb t2i0 "<mask>"%string
               (sp_len sp + PyDict.len t2i0) in
  {| tokens := kw;
     max_len := max_len;
     max_len_single_sentence := max_len - 2;
     max_len_sentences_pair := max_len - 4;
     sp_model := sp;
     vocab_file := vocab_file;
     fairseq_tokens_to_ids := t2i;
     fairseq_offset := 1;
     fairseq_ids_to_tokens := PyDict.invert Z.eqb t2i |}.

Definition vocab_size (self : XLMRobertaTokenizer) : Z :=
  sp_len (sp_model self) + PyDict.len (fairseq_tokens_to_ids self).

Definition _convert_token_to_id (self : XLMRobertaTokenizer) (token : string)
  : Z :=
  match PyDict.get String.eqb (fairseq_tokens_to_ids self) token with
  | Some i => i
  | None => PieceToId (sp_model self) token + fairseq_offset self
  end.

Definition _convert_id_to_token (self : XLMRobertaTokenizer) (index : Z)
  : result string :=
  match PyDict.get Z.eqb (fairseq_ids_to_tokens self) index with
  | Some t => Ok t
  | None => IdToPiece (sp_model self) (index - fairseq_offset self)
  end.

(** Membership in the two reserved tables ([token in fairseq_tokens_to_ids],
    [index in fairseq_ids_to_tokens]). *)
Definition reserved_token (self : XLMRobertaTokenizer) (token : string)
  : bool :=
  PyDict.contains String.eqb (fairseq_tokens_to_ids self) token.

Definition reserved_id (self : XLMRobertaTokenizer) (index : Z) : bool :=
  PyDict.contains Z.eqb (fairseq_ids_to_tokens self) index.

(** Modelled from the spec: the [cls_token_id] and [sep_token_id] properties
    of the base tokenizer ([tokenization_utils.py] is not part of the
    sources); they are the public ids of the configured begin-of-sequence
    and end-of-sequence strings. *)
Definition cls_token_id (self : XLMRobertaTokenizer) : Z :=
  _convert_token_to_id self (cls_token (tokens self)).

(** Modelled from the spec: the base tokenizer's [sep_token_id], as
    [cls_token_id] above. *)
Definition sep_token_id (self : XLMRobertaTokenizer) : Z :=
  _convert_token_to_id self (sep_token (tokens self)).

(** ** Sequence builder *)

Definition build_inputs_with_special_tokens (self : XLMRobertaTokenizer)
    (token_ids_0 : list Z) (token_ids_1 : option (list Z)) : list Z :=
  match token_ids_1 with
  | None => [cls_token_id self] ++ token_ids_0 ++ [sep_token_id self]
  | Some token_ids_1 =>
      let cls := [cls_token_id self] in
      let sep := [sep_token_id self] in
      cls ++ token_ids_0 ++ sep ++ sep ++ token_ids_1 ++ sep
  end.

Definition second_sequence_msg : string :=
  "You should not supply a second sequence if the provided sequence of ids is already formated with special tokens for the model.".

Definition get_special_tokens_mask (self : XLMRobertaTokenizer)
    (token_ids_0 : list Z) (token_ids_1 : option (list Z))
    (already_has_special_tokens : bool) : result (list Z) :=
  if already_has_special_tokens then
    match token_ids_1 with
    | Some _ => Raise (ValueError second_sequence_msg)
    | None =>
        Ok (map (fun x =>
                   if existsb (Z.eqb x) [sep_token_id self; cls_token_id self]
                   then 1 else 0)
                token_ids_0)
    end
  else
    match token_ids_1 with
    | None => Ok ([1] ++ list_mul (List.length token_ids_0) [0] ++ [1])
    | Some token_ids_1 =>
        Ok ([1] ++ list_mul (List.length token_ids_0) [0] ++ [1; 1]
                ++ list_mul (List.length token_ids_1) [0] ++ [1])
    end.

Definition create_token_type_ids_from_sequences (self : XLMRobertaTokenizer)
    (token_ids_0 : list Z) (token_ids_1 : option (list Z)) : list Z :=
  let sep := [sep_token_id self] in
  let cls := [cls_token_id self] in
  match token_ids_1 with
  | None => list_mul (List.length (cls ++ token_ids_0 ++ sep)) [0]
  | Some token_ids_1 =>
      list_mul (List.length (cls ++ token_ids_0 ++ sep ++ sep)) [0]
      ++ list_mul (List.length (token_ids_1 ++ sep)) [1]
  end.

(** ** Vocabulary persistence

    [save_vocabulary] reads the file system through [os.path.isdir] and
    [os.path.abspath], writes it through [shutil.copyfile] and reports
    through the module's logger.  The operating system is an interface;
    the file system it acts on and the records logged so far form the
    [World] the method runs in. *)
Class OS : Type := {
  FS : Type;
  os_path_isdir : FS -> string -> bool;
  os_path_abspath : FS -> string -> string;
  copyfile : string -> string -> FS -> result unit * FS
}.

Definition ends_with_sep (s : string) : bool :=
  match rev (list_ascii_of_string s) with
  | c :: _ => Ascii.eqb c "/"%char
  | [] => false
  end.

(** [os.path.join(a, b)] of [posixpath]. *)
Definition os_path_join (a b : string) : string :=
  if String.prefix "/" b then b
  else if (String.eqb a "" || ends_with_sep a)%bool then (a ++ b)%string
  else (a ++ "/" ++ b)%string.

Record World `{OS} : Type := {
  fs : FS;
  log : list (string * string)
}.

Definition logger_error `{OS} (msg : string) (w : World) : World :=
  {| fs := fs w; log := log w ++ [("ERROR"%string, msg)] |}.

(** What [save_vocabulary] returns: [None], or the one-element tuple
    [(out_vocab_file,)]. *)
Inductive saved : Type :=
| PyNone
| Tuple1 (path : string).

Definition save_vocabulary `{OS} (self : XLMRobertaTokenizer)
    (save_directory : string) (w : World) : result saved * World :=
  if negb (os_path_isdir (fs w) save_directory) then
    (Ok PyNone,
     logger_error ("Vocabulary path (" ++ save_directory
                   ++ ") should be a directory")%string w)
  else
    let out_vocab_file :=
      os_path_join save_directory VOCAB_FILES_NAMES_vocab_file in
    if negb (String.eqb (os_path_abspath (fs w) (vocab_file self))
                        (os_path_abspath (fs w) out_vocab_file)) then
      match copyfile (vocab_file self) out_vocab_file (fs w) with
      | (Ok _, fs') => (Ok (Tuple1 out_vocab_file), {| fs := fs'; log := log w |})
      | (Raise e, fs') => (Raise e, {| fs := fs'; log := log w |})
      end
    else (Ok (Tuple1 out_vocab_file), w).

(** ** Concrete instances *)

(** A processor over an explicit piece list: local id [k] is the position
    in the list, a string outside the list gets the unknown id 0. *)
Fixpoint index_of (p : string) (l : list string) : option nat :=
  match l with
  | [] => None
  | q :: l' =>
      if String.eqb p q then Some O
      else match index_of p l' with
           | Some n => Some (S n)
           | None => None
           end
  end.

Definition spm_of_pieces (pieces : list string) : SentencePieceProcessor := {|
  sp_size := List.length pieces;
  PieceToId := fun p =>
    match index_of p pieces with
    | Some n => Z.of_nat n
    | None => 0
    end;
  IdToPiece := fun k =>
    if (0 <=? k) && (k <? Z.of_nat (List.length pieces)) then
      match nth_error pieces (Z.to_nat k) with
      | Some p => Ok p
      | None => Raise (IndexError "piece id is out of range.")
      end
    else Raise (IndexError "piece id is out of range.");
  unk_id := 0
|}.

(** The first ten entries of the spm vocabulary in the constructor's
    comment. *)
Definition spm_sample : SentencePieceProcessor :=
  spm_of_pieces ["<unk>"; "<s>"; "</s>"; ","; "."; "▁"; "s"; "▁de"; "-"; "▁a"]%string.

(** A vocabulary that does not follow the fairseq layout: its first slots
    hold ordinary pieces. *)
Definition spm_unaligned : SentencePieceProcessor :=
  spm_of_pieces ["a"; "b"; "c"; "d"]%string.

Definition sample_tokenizer : XLMRobertaTokenizer :=
  __init__ spm_sample "sentencepiece.bpe.model" default_tokens.

(** An in-memory file system: the directories that exist, and the content
    of each file under its absolute path; the working directory is [/]. *)
Record MemFS : Type := {
  dirs : list string;
  contents : @PyDict.dict string string
}.

Definition mem_abspath (p : string) : string :=
  if String.prefix "/" p then p else ("/" ++ p)%string.

#[export] Instance MemOS : OS := {|
  FS := MemFS;
  os_path_isdir := fun m d => existsb (String.eqb d) (dirs m);
  os_path_abspath := fun _ p => mem_abspath p;
  copyfile := fun src dst m =>
    match PyDict.get String.eqb (contents m) (mem_abspath src) with
    | Some c =>
        (Ok tt, {| dirs := dirs m;
                   contents := PyDict.set String.eqb (contents m)
                                 (mem_abspath dst) c |})
    | None => (Raise (OSError "No such file or directory"), m)
    end
|}.

(** A tokenizer loaded from [/models], and a world with that file and an
    empty second directory [/out]. *)
Definition stored_tokenizer : XLMRobertaTokenizer :=
  __init__ spm_sample "/models/sentencepiece.bpe.model" default_tokens.

Definition sample_world : World := {|
  fs := {| dirs := ["/models"; "/out"]%string;
           contents := [("/models/sentencepiece.bpe.model",
                         "serialized model")]%string |};
  log := []
|}.

(** The same world after the source file has been removed. *)
Definition missing_source_world : World := {|
  fs := {| dirs := ["/models"; "/out"]%string; contents := [] |};
  log := []
|}.

(** A processor whose unknown placeholder is not in slot 0: the pieces are
    looked up as in [spm_of_pieces], a string outside the list gets the id
    of ["<unk>"], here 3. *)
Definition spm_unk_last : SentencePieceProcessor :=
  let pieces := ["a"; "b"; "c"; "<unk>"]%string in
  {| sp_size := List.length pieces;
     PieceToId := fun p =>
       match index_of p pieces with
       | Some n => Z.of_nat n
       | None => 3
       end;
     IdToPiece := IdToPiece (spm_of_pieces pieces);
     unk_id := 3 |}.

(** The strings of the reserved table, as a test. *)
Definition fairseq_reserved (p : string) : bool :=
  existsb (String.eqb p) ["<s>"; "<pad>"; "</s>"; "<unk>"; "<mask>"]%string.

(** * Properties *)

(** ** The reserved tables built by the constructor *)

Lemma sp_len_nonneg (sp : SentencePieceProcessor) : 0 <= sp_len sp.
Proof. unfold sp_len. apply Nat2Z.is_nonneg. Qed.

Lemma tokens_table (sp : SentencePieceProcessor) (vf : string)
    (kw : special_tokens) :
  fairseq_tokens_to_ids (__init__ sp vf kw) =
  [("<s>", 0); ("<pad>", 1); ("</s>", 2); ("<unk>", 3);
   ("<mask>", sp_len sp + 4)]%string.
Proof. reflexivity. Qed.

Ltac decide_eqb :=
  repeat match goal with
         | |- context [Z.eqb ?a ?b] =>
             destruct (Z.eqb_spec a b); try lia; cbn -[Z.add Z.eqb sp_len]
         end.

Lemma ids_table (sp : SentencePieceProcessor) (vf : string)
    (kw : special_tokens) :
  fairseq_ids_to_tokens (__init__ sp vf kw) =
  [(0, "<s>"); (1, "<pad>"); (2, "</s>"); (3, "<unk>");
   (sp_len sp + 4, "<mask>")]%string.
Proof.
  pose proof (sp_len_nonneg sp) as Hn.
  cbn -[Z.add Z.eqb sp_len].
  unfold PyDict.invert, PyDict.items. cbn -[Z.add Z.eqb sp_len].
  decide_eqb. reflexivity.
Qed.

(** Outside the five reserved ids the id table has no entry. *)
Lemma ids_table_miss (sp : SentencePieceProcessor) (vf : string)
    (kw : special_tokens) (i : Z) :
  4 <= i <= sp_len sp + 3 \/ i < 0 \/ sp_len sp + 4 < i ->
  PyDict.get Z.eqb (fairseq_ids_to_tokens (__init__ sp vf kw)) i = None.
Proof.
  intros Hi. pose proof (sp_len_nonneg sp) as Hn.
  rewrite ids_table. cbn -[Z.add Z.eqb sp_len].
  decide_eqb. reflexivity.
Qed.

(** A string outside the five reserved ones is absent from the token
    table. *)
Lemma tokens_table_miss (sp : SentencePieceProcessor) (vf : string)
    (kw : special_tokens) (p : string) :
  ~ In p ["<s>"; "<pad>"; "</s>"; "<unk>"; "<mask>"]%string ->
  PyDict.get String.eqb (fairseq_tokens_to_ids (__init__ sp vf kw)) p = None.
Proof.
  intros Hp. rewrite tokens_table. cbn -[Z.add String.eqb sp_len].
  repeat match goal with
         | |- context [String.eqb ?a ?b] =>
             destruct (String.eqb_spec a b);
             [exfalso; apply Hp; subst; simpl; tauto |]
         end.
  reflexivity.
Qed.

Lemma reserved_token_spec (sp : SentencePieceProcessor) (vf : string)
    (kw : special_tokens) (p : string) :
  reserved_token (__init__ sp vf kw) p = true <->
  In p ["<s>"; "<pad>"; "</s>"; "<unk>"; "<mask>"]%string.
Proof.
  unfold reserved_token, PyDict.contains. split.
  - intros H.
    destruct (in_dec string_dec p
                ["<s>"; "<pad>"; "</s>"; "<unk>"; "<mask>"]%string)
      as [Hin | Hout]; [exact Hin |].
    rewrite (tokens_table_miss sp vf kw p Hout) in H. discriminate.
  - intros Hin. rewrite tokens_table. simpl in Hin.
    repeat (destruct Hin as [<- | Hin]; [reflexivity |]). contradiction.
Qed.

(** C2.  The five reserved tokens are answered from the fixed table in both
    directions, whatever the engine does with these strings: ["<s>"] is 0,
    ["<pad>"] is 1, ["</s>"] is 2, ["<unk>"] is 3 and ["<mask>"] is the
    engine's size plus 4. *)
Theorem reserved_tokens_fixed (sp : SentencePieceProcessor) (vf : string)
    (kw : special_tokens) :
  let self := __init__ sp vf kw in
  (_convert_token_to_id self "<s>" = 0 /\
   _convert_token_to_id self "<pad>" = 1 /\
   _convert_token_to_id self "</s>" = 2 /\
   _convert_token_to_id self "<unk>" = 3 /\
   _convert_token_to_id self "<mask>" = sp_len sp + 4) /\
  (_convert_id_to_token self 0 = Ok "<s>"%string /\
   _convert_id_to_token self 1 = Ok "<pad>"%string /\
   _convert_id_to_token self 2 = Ok "</s>"%string /\
   _convert_id_to_token self 3 = Ok "<unk>"%string /\
   _convert_id_to_token self (sp_len sp + 4) = Ok "<mask>"%string).
Proof.
  intros self. split.
  - repeat split; reflexivity.
  - pose proof (sp_len_nonneg sp) as Hn.
    unfold _convert_id_to_token, self. rewrite ids_table.
    cbn -[Z.add Z.eqb sp_len].
    repeat split; decide_eqb; reflexivity.
Qed.

(** C3.  The public vocabulary size is the engine's size plus 5. *)
Theorem vocab_size_is_engine_size_plus_5 (sp : SentencePieceProcessor)
    (vf : string) (kw : special_tokens) :
  vocab_size (__init__ sp vf kw) = sp_len sp + 5.
Proof. reflexivity. Qed.

(** ** Sequence builder *)

Lemma list_mul_singleton {A : Type} (n : nat) (x : A) :
  list_mul n [x] = repeat x n.
Proof. induction n as [| n IH]; simpl; [reflexivity | now rewrite IH]. Qed.

Lemma list_mul_length {A : Type} (n : nat) (l : list A) :
  List.length (list_mul n l) = (n * List.length l)%nat.
Proof.
  induction n as [| n IH]; simpl; [reflexivity |].
  now rewrite length_app, IH.
Qed.

Ltac list_len :=
  repeat (progress (simpl; rewrite ?length_app, ?repeat_length)); try lia.

Section Builder.
Variable self : XLMRobertaTokenizer.

Let BOS := cls_token_id self.
Let EOS := sep_token_id self.

(** C4.  A single sequence is wrapped as [BOS A EOS]; a pair is laid out
    as [BOS A EOS EOS B EOS]: after the first [1 + len A] elements come
    exactly two [EOS], then [B] and the closing [EOS]. *)
Theorem build_inputs_layout (A B : list Z) :
  build_inputs_with_special_tokens self A None = [BOS] ++ A ++ [EOS] /\
  build_inputs_with_special_tokens self A (Some B)
    = [BOS] ++ A ++ [EOS] ++ [EOS] ++ B ++ [EOS] /\
  firstn (S (List.length A))
         (build_inputs_with_special_tokens self A (Some B)) = BOS :: A /\
  skipn (S (List.length A))
        (build_inputs_with_special_tokens self A (Some B))
    = EOS :: EOS :: B ++ [EOS] /\
  List.length (build_inputs_with_special_tokens self A (Some B))
    = (List.length A + List.length B + 4)%nat.
Proof.
  unfold build_inputs_with_special_tokens. fold BOS EOS.
  repeat split.
  - change ([BOS] ++ A ++ [EOS] ++ [EOS] ++ B ++ [EOS])
      with ((BOS :: A) ++ EOS :: EOS :: B ++ [EOS]).
    replace (S (List.length A)) with (List.length (BOS :: A) + 0)%nat
      by (simpl; lia).
    rewrite firstn_app_2. simpl. now rewrite app_nil_r.
  - change ([BOS] ++ A ++ [EOS] ++ [EOS] ++ B ++ [EOS])
      with ((BOS :: A) ++ EOS :: EOS :: B ++ [EOS]).
    replace (S (List.length A)) with (List.length (BOS :: A))
      by reflexivity.
    rewrite skipn_app, skipn_all, Nat.sub_diag. reflexivity.
  - list_len.
Qed.

(** C5.  Without special tokens in the input, the special-token mask is
    [1 0..0 1] for a single sequence and [1 0..0 1 1 0..0 1] for a pair,
    as long as the corresponding [build_inputs_with_special_tokens]. *)
Theorem special_tokens_mask_untagged (A B : list Z) :
  get_special_tokens_mask self A None false
    = Ok ([1] ++ repeat 0 (List.length A) ++ [1]) /\
  get_special_tokens_mask self A (Some B) false
    = Ok ([1] ++ repeat 0 (List.length A) ++ [1; 1]
              ++ repeat 0 (List.length B) ++ [1]) /\
  List.length ([1] ++ repeat 0 (List.length A) ++ [1])
    = List.length (build_inputs_with_special_tokens self A None) /\
  List.length ([1] ++ repeat 0 (List.length A) ++ [1; 1]
                   ++ repeat 0 (List.length B) ++ [1])
    = List.length (build_inputs_with_special_tokens self A (Some B)).
Proof.
  unfold get_special_tokens_mask, build_inputs_with_special_tokens.
  rewrite !list_mul_singleton. repeat split.
  - list_len.
  - list_len.
Qed.

(** C6.  The segment mask of a single sequence is all zeros, as long as
    the built input; for a pair it is [len (BOS A EOS EOS)] zeros followed
    by [len (B EOS)] ones, so the position of the second [EOS] of the
    separator pair carries a zero. *)
Theorem token_type_ids_layout (A B : list Z) :
  create_token_type_ids_from_sequences self A None
    = repeat 0 (List.length (build_inputs_with_special_tokens self A None))
  /\
  create_token_type_ids_from_sequences self A (Some B)
    = repeat 0 (List.length ([BOS] ++ A ++ [EOS] ++ [EOS]))
      ++ repeat 1 (List.length (B ++ [EOS])) /\
  nth_error (build_inputs_with_special_tokens self A (Some B))
            (List.length A + 2) = Some EOS /\
  nth_error (create_token_type_ids_from_sequences self A (Some B))
            (List.length A + 2) = Some 0.
Proof.
  unfold create_token_type_ids_from_sequences,
    build_inputs_with_special_tokens.
  fold BOS EOS. rewrite !list_mul_singleton. repeat split.
  - change ([BOS] ++ A ++ [EOS] ++ [EOS] ++ B ++ [EOS])
      with ((BOS :: A) ++ EOS :: EOS :: B ++ [EOS]).
    rewrite nth_error_app2 by (simpl; lia).
    replace (List.length A + 2 - List.length (BOS :: A))%nat with 1%nat
      by (simpl; lia).
    reflexivity.
  - rewrite nth_error_app1.
    + apply nth_error_repeat. list_len.
    + list_len.
Qed.

(** C7, as the code computes it.  For [A = [10; 11]] and
    [B = [20; 21; 22]] the segment mask is five zeros followed by four
    ones. *)
Theorem token_type_ids_example :
  create_token_type_ids_from_sequences self [10; 11] (Some [20; 21; 22])
    = [0; 0; 0; 0; 0; 1; 1; 1; 1].
Proof. reflexivity. Qed.

(** C8.  With [already_has_special_tokens] set and a second sequence
    supplied the call raises [ValueError]: the outcome is the exception,
    whatever the two sequences are, and no mask is returned. *)
Theorem special_tokens_mask_rejects_pair (A B : list Z) :
  get_special_tokens_mask self A (Some B) true
    = Raise (ValueError second_sequence_msg) /\
  forall mask, get_special_tokens_mask self A (Some B) true <> Ok mask.
Proof.
  split; [reflexivity |]. intros mask. discriminate.
Qed.
End Builder.

(** The examples of the sequence builder on the default tokenizer, where
    [BOS] is 0 and [EOS] is 2. *)
Example build_inputs_single :
  build_inputs_with_special_tokens sample_tokenizer [10; 11; 12] None
  = [0; 10; 11; 12; 2].
Proof. reflexivity. Qed.

Example build_inputs_pair :
  build_inputs_with_special_tokens sample_tokenizer [10; 11]
    (Some [20; 21; 22])
  = [0; 10; 11; 2; 2; 20; 21; 22; 2].
Proof. reflexivity. Qed.

Example special_tokens_mask_single :
  get_special_tokens_mask sample_tokenizer [10; 11; 12] None false
  = Ok [1; 0; 0; 0; 1].
Proof. reflexivity. Qed.

Example special_tokens_mask_pair :
  get_special_tokens_mask sample_tokenizer [10; 11] (Some [20; 21; 22]) false
  = Ok [1; 0; 0; 1; 1; 0; 0; 0; 1].
Proof. reflexivity. Qed.

Example special_tokens_mask_tagged :
  get_special_tokens_mask sample_tokenizer [0; 10; 11; 2] None true
  = Ok [1; 0; 0; 1].
Proof. reflexivity. Qed.

(** C7, as the specification's example states it: six zeros and three ones
    is not what the code returns. *)
Lemma token_type_ids_example_not_six_zeros :
  create_token_type_ids_from_sequences sample_tokenizer
    [10; 11] (Some [20; 21; 22])
  <> [0; 0; 0; 0; 0; 0; 1; 1; 1].
Proof. discriminate. Qed.

(** ** Index remapper *)

Lemma reserved_id_spec (sp : SentencePieceProcessor) (vf : string)
    (kw : special_tokens) (i : Z) :
  reserved_id (__init__ sp vf kw) i = true <->
  i = 0 \/ i = 1 \/ i = 2 \/ i = 3 \/ i = sp_len sp + 4.
Proof.
  pose proof (sp_len_nonneg sp) as Hn.
  unfold reserved_id, PyDict.contains. rewrite ids_table.
  cbn -[Z.add Z.eqb sp_len].
  split.
  - decide_eqb; intros H; try discriminate H; lia.
  - intros H. decide_eqb; reflexivity.
Qed.

Section Remapper.
Variable sp : SentencePieceProcessor.
Variable vf : string.
Variable kw : special_tokens.

Let self := __init__ sp vf kw.

(** Outside the token table the public id is the engine's id plus one. *)
Lemma token_to_id_offset (p : string) :
  reserved_token self p = false ->
  _convert_token_to_id self p = PieceToId sp p + 1.
Proof.
  intros Hp. unfold self in *. unfold _convert_token_to_id.
  rewrite tokens_table_miss; [reflexivity |].
  intros Hin. apply (reserved_token_spec sp vf kw) in Hin. congruence.
Qed.

(** Outside the id table the token is the engine's piece one below. *)
Lemma id_to_token_offset (i : Z) :
  reserved_id self i = false ->
  _convert_id_to_token self i = IdToPiece sp (i - 1).
Proof.
  unfold _convert_id_to_token, reserved_id, PyDict.contains.
  destruct (PyDict.get Z.eqb (fairseq_ids_to_tokens self) i);
    [discriminate | reflexivity].
Qed.

Hypothesis Hok : engine_ok sp.

(** In an aligned engine the pieces that are not reserved strings are
    those from local id 3 on. *)
Lemma aligned_piece_slot (k : Z) (p : string) :
  fairseq_aligned sp ->
  IdToPiece sp k = Ok p ->
  (reserved_token self p = false <-> 3 <= k).
Proof.
  intros (H0 & H1 & H2 & Hrest) Hk. unfold self in *.
  assert (Hrange : 0 <= k < sp_len sp) by (apply (id_range sp Hok); eauto).
  split.
  - intros Hp.
    destruct (Z_lt_le_dec k 3) as [Hlt | Hge]; [exfalso | exact Hge].
    assert (Hin : In p ["<s>"; "<pad>"; "</s>"; "<unk>"; "<mask>"]%string).
    { assert (Hcases : k = 0 \/ k = 1 \/ k = 2) by lia.
      destruct Hcases as [-> | [-> | ->]];
        [rewrite H0 in Hk | rewrite H1 in Hk | rewrite H2 in Hk];
        injection Hk as <-; simpl; tauto. }
    apply (reserved_token_spec sp vf kw) in Hin. congruence.
  - intros Hge.
    destruct (reserved_token (__init__ sp vf kw) p) eqn:Hp;
      [exfalso | reflexivity].
    apply reserved_token_spec in Hp. exact (Hrest k p Hge Hk Hp).
Qed.

(** C1, as the code has it.  Over an engine aligned with the fairseq
    layout, a piece that is not a reserved string has the public id of its
    local id plus one and that id leads back to the piece; and an id [i]
    that is not reserved and whose [i - 1] is a local id of the engine
    leads to a piece whose id is [i] again. *)
Theorem offset_roundtrip (Hal : fairseq_aligned sp) :
  (forall p k, IdToPiece sp k = Ok p -> reserved_token self p = false ->
     _convert_token_to_id self p = k + 1 /\
     _convert_id_to_token self (_convert_token_to_id self p) = Ok p) /\
  (forall i, 0 <= i - 1 < sp_len sp -> reserved_id self i = false ->
     exists p, IdToPiece sp (i - 1) = Ok p /\
               _convert_id_to_token self i = Ok p /\
               _convert_token_to_id self p = i).
Proof.
  split.
  - intros p k Hk Hp.
    assert (Hge : 3 <= k) by (apply (aligned_piece_slot k p Hal Hk); exact Hp).
    assert (Hrange : 0 <= k < sp_len sp) by (apply (id_range sp Hok); eauto).
    rewrite (token_to_id_offset p Hp), (piece_id sp Hok k p Hk).
    split; [reflexivity |].
    unfold _convert_id_to_token, self.
    rewrite ids_table_miss by lia.
    replace (k + 1 - fairseq_offset (__init__ sp vf kw)) with k
      by (simpl; lia).
    exact Hk.
  - intros i Hrange Hi.
    destruct (proj2 (id_range sp Hok (i - 1)) Hrange) as [p Hp].
    exists p. split; [exact Hp |].
    rewrite (id_to_token_offset i Hi). split; [exact Hp |].
    assert (Hge : 3 <= i - 1).
    { destruct (Z_lt_le_dec (i - 1) 3) as [Hlt | Hge]; [exfalso | exact Hge].
      assert (Hres : reserved_id self i = true)
        by (apply reserved_id_spec; lia).
      congruence. }
    rewrite token_to_id_offset
      by (apply (aligned_piece_slot (i - 1) p Hal Hp); exact Hge).
    rewrite (piece_id sp Hok (i - 1) p Hp). lia.
Qed.

(** C10.  A string that is neither reserved nor a piece of the engine gets
    the engine's unknown id plus the offset, whatever that unknown id is;
    when the unknown placeholder sits at local id 0 that is public id 1,
    the id of ["<pad>"], and not 3, the id of ["<unk>"]. *)
Theorem unknown_string_gets_pad_id (p : string) :
  reserved_token self p = false ->
  (forall k, IdToPiece sp k <> Ok p) ->
  _convert_token_to_id self p = unk_id sp + fairseq_offset self /\
  (unk_id sp = 0 ->
   _convert_token_to_id self p = 1 /\
   _convert_token_to_id self p = _convert_token_to_id self "<pad>" /\
   _convert_token_to_id self p <> _convert_token_to_id self "<unk>").
Proof.
  intros Hp Hnew.
  rewrite (token_to_id_offset p Hp), (unknown_piece sp Hok p Hnew).
  split; [reflexivity |].
  intros Hunk. rewrite Hunk. repeat split. discriminate.
Qed.
End Remapper.

(** ** The list-backed processor meets the engine contract *)

Lemma index_of_In (p : string) (l : list string) :
  index_of p l = None -> ~ In p l.
Proof.
  induction l as [| q l IH]; simpl; [tauto |].
  destruct (String.eqb_spec p q) as [-> | Hne]; [discriminate |].
  destruct (index_of p l); [discriminate |].
  intros _ [Heq | Hin]; [congruence | now apply IH].
Qed.

Lemma index_of_nth_error (p : string) (l : list string) (n : nat) :
  NoDup l -> nth_error l n = Some p -> index_of p l = Some n.
Proof.
  intros Hnd. revert n.
  induction Hnd as [| q l Hq Hnd IH]; intros [| n] Hn; simpl in *;
    try discriminate.
  - injection Hn as ->. now rewrite String.eqb_refl.
  - destruct (String.eqb_spec p q) as [-> | Hne].
    + exfalso. apply Hq. eapply nth_error_In; eauto.
    + now rewrite (IH n Hn).
Qed.

Lemma spm_of_pieces_lookup (l : list string) (k : Z) (p : string) :
  IdToPiece (spm_of_pieces l) k = Ok p <->
  0 <= k < Z.of_nat (List.length l) /\ nth_error l (Z.to_nat k) = Some p.
Proof.
  simpl. split.
  - destruct (Z.leb_spec 0 k), (Z.ltb_spec k (Z.of_nat (List.length l)));
      simpl; try discriminate.
    destruct (nth_error l (Z.to_nat k)); [| discriminate].
    intros [= ->]. split; [lia | reflexivity].
  - intros [[Hlo Hhi] Hn].
    apply Z.leb_le in Hlo. apply Z.ltb_lt in Hhi.
    now rewrite Hlo, Hhi, Hn.
Qed.

Lemma spm_of_pieces_ok (l : list string) :
  NoDup l -> engine_ok (spm_of_pieces l).
Proof.
  intros Hnd. constructor.
  - intros k. unfold sp_len. simpl sp_size. split.
    + intros [p Hp]. now apply spm_of_pieces_lookup in Hp.
    + intros Hk.
      destruct (nth_error l (Z.to_nat k)) as [p |] eqn:Hn.
      * exists p. apply spm_of_pieces_lookup. tauto.
      * apply nth_error_None in Hn. lia.
  - intros k p Hp. apply spm_of_pieces_lookup in Hp as [Hk Hn].
    simpl. rewrite (index_of_nth_error p l _ Hnd Hn). lia.
  - intros p Hnew. simpl.
    destruct (index_of p l) as [n |] eqn:Hidx; [exfalso | reflexivity].
    assert (Hin : In p l).
    { destruct (in_dec string_dec p l) as [Hin | Hout]; [exact Hin |].
      exfalso. clear Hnew. revert n Hidx.
      induction l as [| q l IH]; simpl; intros n Hidx; [discriminate |].
      destruct (String.eqb_spec p q) as [-> | Hne];
        [apply Hout; now left |].
      destruct (index_of p l) as [m |] eqn:Hm; [| discriminate].
      inversion Hnd; subst.
      apply (IH H2 (fun H => Hout (or_intror H)) m eq_refl). }
    apply In_nth_error in Hin as [m Hm].
    apply (Hnew (Z.of_nat m)). apply spm_of_pieces_lookup.
    rewrite Nat2Z.id. split; [| exact Hm].
    assert (Hlt : (m < List.length l)%nat)
      by (apply nth_error_Some; congruence).
    lia.
Qed.

Lemma spm_of_pieces_aligned (rest : list string) :
  forallb (fun p => negb (fairseq_reserved p)) rest = true ->
  fairseq_aligned (spm_of_pieces ("<unk>" :: "<s>" :: "</s>" :: rest)%string).
Proof.
  intros Hrest.
  assert (Hhead : forall k p,
             0 <= k < 3 ->
             nth_error ["<unk>"; "<s>"; "</s>"]%string (Z.to_nat k) = Some p ->
             IdToPiece (spm_of_pieces
                          ("<unk>" :: "<s>" :: "</s>" :: rest)%string) k
             = Ok p).
  { intros k p Hk Hn. apply spm_of_pieces_lookup. split.
    - simpl List.length. lia.
    - assert (Hc : k = 0 \/ k = 1 \/ k = 2) by lia.
      destruct Hc as [-> | [-> | ->]]; exact Hn. }
  split; [apply Hhead; [lia | reflexivity] |].
  split; [apply Hhead; [lia | reflexivity] |].
  split; [apply Hhead; [lia | reflexivity] |].
  intros k p Hk Hp Hin.
    apply spm_of_pieces_lookup in Hp as [Hrange Hn].
    replace (Z.to_nat k) with (3 + Z.to_nat (k - 3))%nat in Hn by lia.
    simpl in Hn. apply nth_error_In in Hn.
    rewrite forallb_forall in Hrest. specialize (Hrest p Hn).
    apply negb_true_iff in Hrest.
    assert (Hres : fairseq_reserved p = true).
    { unfold fairseq_reserved. apply existsb_exists. exists p.
      split; [exact Hin | apply String.eqb_refl]. }
    congruence.
Qed.

Lemma spm_sample_ok : engine_ok spm_sample.
Proof.
  apply spm_of_pieces_ok.
  repeat (constructor;
          [simpl; intros H;
           repeat (destruct H as [H | H]; [discriminate H |]); exact H |]).
  constructor.
Qed.

Lemma spm_sample_aligned : fairseq_aligned spm_sample.
Proof. apply spm_of_pieces_aligned. reflexivity. Qed.

(** C1, as the specification states it for ids: every id of the public
    range [0 .. vocab_size - 1] outside the reserved table round-trips.  On
    the sample vocabulary (engine size 10, public size 15) id 11 is such an
    id, and the lookup of local id 10 fails. *)
Lemma roundtrip_fails_above_engine_size :
  ~ (forall i,
       0 <= i < vocab_size sample_tokenizer ->
       reserved_id sample_tokenizer i = false ->
       exists p, _convert_id_to_token sample_tokenizer i = Ok p /\
                 _convert_token_to_id sample_tokenizer p = i).
Proof.
  intros H.
  destruct (H 11) as [p [Hp _]].
  - vm_compute. split; [discriminate | reflexivity].
  - reflexivity.
  - vm_compute in Hp. discriminate Hp.
Qed.

(** The alignment is needed: over a vocabulary whose slot 0 holds an
    ordinary piece, that piece gets public id 1, which the id table answers
    with ["<pad>"]. *)
Lemma roundtrip_needs_alignment :
  let self := __init__ spm_unaligned "sentencepiece.bpe.model" default_tokens in
  engine_ok spm_unaligned /\
  IdToPiece spm_unaligned 0 = Ok "a"%string /\
  reserved_token self "a" = false /\
  _convert_id_to_token self (_convert_token_to_id self "a")
  = Ok "<pad>"%string.
Proof.
  intros self. split; [| repeat split].
  apply spm_of_pieces_ok.
  repeat (constructor;
          [simpl; intros H;
           repeat (destruct H as [H | H]; [discriminate H |]); exact H |]).
  constructor.
Qed.

Lemma offset_roundtrip_witness :
  engine_ok spm_sample /\
  fairseq_aligned spm_sample /\
  (_convert_token_to_id sample_tokenizer "," = 3 + 1 /\
   _convert_id_to_token sample_tokenizer
     (_convert_token_to_id sample_tokenizer ",") = Ok ","%string) /\
  (exists p, IdToPiece spm_sample (10 - 1) = Ok p /\
             _convert_id_to_token sample_tokenizer 10 = Ok p /\
             _convert_token_to_id sample_tokenizer p = 10).
Proof.
  split; [exact spm_sample_ok |].
  split; [exact spm_sample_aligned |].
  destruct (offset_roundtrip spm_sample "sentencepiece.bpe.model"
              default_tokens spm_sample_ok spm_sample_aligned)
    as [Hpiece Hid].
  split.
  - apply (Hpiece ","%string 3); reflexivity.
  - apply (Hid 10); [vm_compute; split; [discriminate | reflexivity]
                    | reflexivity].
Defined.

Lemma unknown_string_gets_pad_id_witness :
  engine_ok spm_sample /\
  reserved_token sample_tokenizer "hello" = false /\
  _convert_token_to_id sample_tokenizer "hello"
  = unk_id spm_sample + fairseq_offset sample_tokenizer /\
  unk_id spm_sample = 0 /\
  _convert_token_to_id sample_tokenizer "hello" = 1.
Proof.
  assert (Hnew : forall k, IdToPiece spm_sample k <> Ok "hello"%string).
  { intros k Hk. apply spm_of_pieces_lookup in Hk as [Hrange Hn].
    apply nth_error_In in Hn. simpl in Hn.
    repeat (destruct Hn as [Hn | Hn]; [discriminate Hn |]). exact Hn. }
  destruct (unknown_string_gets_pad_id spm_sample "sentencepiece.bpe.model"
              default_tokens spm_sample_ok "hello"%string eq_refl Hnew)
    as [Hoffset Hpad].
  split; [exact spm_sample_ok |].
  split; [reflexivity |].
  split; [exact Hoffset |].
  split; [reflexivity |].
  exact (proj1 (Hpad eq_refl)).
Defined.

Lemma index_of_Some (p : string) (l : list string) (n : nat) :
  index_of p l = Some n -> nth_error l n = Some p.
Proof.
  revert n. induction l as [| q l IH]; simpl; intros n; [discriminate |].
  destruct (String.eqb_spec p q) as [-> | Hne].
  - intros [= <-]. reflexivity.
  - destruct (index_of p l) as [m |]; [| discriminate].
    intros [= <-]. simpl. apply IH. reflexivity.
Qed.

Lemma spm_unk_last_ok : engine_ok spm_unk_last.
Proof.
  assert (Hnd : NoDup ["a"; "b"; "c"; "<unk>"]%string).
  { repeat (constructor;
            [simpl; intros H;
             repeat (destruct H as [H | H]; [discriminate H |]); exact H |]).
    constructor. }
  pose proof (spm_of_pieces_ok _ Hnd) as Hbase.
  constructor.
  - exact (id_range _ Hbase).
  - intros k p Hk.
    change (IdToPiece (spm_of_pieces ["a"; "b"; "c"; "<unk>"]%string) k
            = Ok p) in Hk.
    apply spm_of_pieces_lookup in Hk as [Hrange Hn].
    unfold spm_unk_last. cbv beta zeta. cbn [PieceToId].
    rewrite (index_of_nth_error p _ _ Hnd Hn). lia.
  - intros p Hnew. unfold spm_unk_last. cbv beta zeta. cbn [PieceToId unk_id].
    destruct (index_of p ["a"; "b"; "c"; "<unk>"]%string) as [n |] eqn:Hidx;
      [exfalso | reflexivity].
    apply index_of_Some in Hidx.
    apply (Hnew (Z.of_nat n)).
    change (IdToPiece (spm_of_pieces ["a"; "b"; "c"; "<unk>"]%string)
              (Z.of_nat n) = Ok p).
    apply spm_of_pieces_lookup. rewrite Nat2Z.id. split; [| exact Hidx].
    assert (Hlt : (n < List.length ["a"; "b"; "c"; "<unk>"]%string)%nat)
      by (apply nth_error_Some; congruence).
    lia.
Qed.

(** Over a processor whose unknown placeholder sits at local id 3, a string
    outside the vocabulary gets public id 4: the id follows the engine's
    unknown id. *)
Lemma unknown_string_follows_unk_id :
  let self := __init__ spm_unk_last "sentencepiece.bpe.model" default_tokens in
  engine_ok spm_unk_last /\
  unk_id spm_unk_last = 3 /\
  reserved_token self "hello" = false /\
  (forall k, IdToPiece spm_unk_last k <> Ok "hello"%string) /\
  _convert_token_to_id self "hello" = 4.
Proof.
  intros self. split; [exact spm_unk_last_ok |].
  repeat split.
  intros k Hk.
  change (IdToPiece (spm_of_pieces ["a"; "b"; "c"; "<unk>"]%string) k
          = Ok "hello"%string) in Hk.
  apply spm_of_pieces_lookup in Hk as [Hrange Hn].
  apply nth_error_In in Hn. simpl in Hn.
  repeat (destruct Hn as [Hn | Hn]; [discriminate Hn |]). exact Hn.
Qed.

(** ** Vocabulary persistence *)

(** C9, as the code has it.  [save_vocabulary] on a path that is not a
    directory logs one error record, returns [None] and leaves the file
    system as it was; on a directory whose joined destination has the
    absolute path of the source it returns the destination and leaves the
    whole world as it was, no copy being made; on any other directory it
    copies the source to the destination, and returns the destination when
    the copy succeeds, while an exception of the copy comes through and no
    path is returned. *)
Theorem save_vocabulary_cases `{OS} (self : XLMRobertaTokenizer)
    (d : string) (w : World) :
  let out := os_path_join d VOCAB_FILES_NAMES_vocab_file in
  (os_path_isdir (fs w) d = false ->
   save_vocabulary self d w
   = (Ok PyNone,
      {| fs := fs w;
         log := log w ++ [("ERROR", "Vocabulary path (" ++ d
                                    ++ ") should be a directory")]%string |}))
  /\
  (os_path_isdir (fs w) d = true ->
   os_path_abspath (fs w) (vocab_file self) = os_path_abspath (fs w) out ->
   save_vocabulary self d w = (Ok (Tuple1 out), w)) /\
  (os_path_isdir (fs w) d = true ->
   os_path_abspath (fs w) (vocab_file self) <> os_path_abspath (fs w) out ->
   forall fs', copyfile (vocab_file self) out (fs w) = (Ok tt, fs') ->
   save_vocabulary self d w
   = (Ok (Tuple1 out), {| fs := fs'; log := log w |})) /\
  (os_path_isdir (fs w) d = true ->
   os_path_abspath (fs w) (vocab_file self) <> os_path_abspath (fs w) out ->
   forall e fs', copyfile (vocab_file self) out (fs w) = (Raise e, fs') ->
   save_vocabulary self d w = (Raise e, {| fs := fs'; log := log w |})).
Proof.
  intros out. unfold save_vocabulary. fold out. repeat split.
  - intros Hdir. rewrite Hdir. reflexivity.
  - intros Hdir Hsame. rewrite Hdir, Hsame, String.eqb_refl. reflexivity.
  - intros Hdir Hdiff fs' Hcopy. rewrite Hdir. simpl negb.
    apply String.eqb_neq in Hdiff. rewrite Hdiff, Hcopy. reflexivity.
  - intros Hdir Hdiff e fs' Hcopy. rewrite Hdir. simpl negb.
    apply String.eqb_neq in Hdiff. rewrite Hdiff, Hcopy. reflexivity.
Qed.

(** C9, as the specification states its last case: on a directory whose
    destination differs from the source, the destination path is returned.
    With the source file gone the copy raises, and so does the call. *)
Lemma save_vocabulary_copy_may_fail :
  ~ (forall (self : XLMRobertaTokenizer) (d : string) (w : World),
       os_path_isdir (fs w) d = true ->
       os_path_abspath (fs w) (vocab_file self)
       <> os_path_abspath (fs w) (os_path_join d VOCAB_FILES_NAMES_vocab_file) ->
       exists w',
         save_vocabulary self d w
         = (Ok (Tuple1 (os_path_join d VOCAB_FILES_NAMES_vocab_file)), w')).
Proof.
  intros H.
  destruct (H stored_tokenizer "/out"%string missing_source_world)
    as [w' Hw'].
  - reflexivity.
  - vm_compute. discriminate.
  - vm_compute in Hw'. discriminate Hw'.
Qed.

Lemma get_set_same {V : Type} (d : @PyDict.dict string V) (k : string)
    (v : V) :
  PyDict.get String.eqb (PyDict.set String.eqb d k v) k = Some v.
Proof.
  induction d as [| [k' v'] d IH]; simpl.
  - now rewrite String.eqb_refl.
  - destruct (String.eqb k k') eqn:Hk; simpl; rewrite Hk;
      [reflexivity | exact IH].
Qed.

(** In the in-memory file system a successful copy leaves the source's
    content under the destination's absolute path. *)
Lemma mem_copyfile_content (src dst : string) (m m' : MemFS) :
  copyfile src dst m = (Ok tt, m') ->
  PyDict.get String.eqb (contents m') (mem_abspath dst)
  = PyDict.get String.eqb (contents m) (mem_abspath src) /\
  dirs m' = dirs m.
Proof.
  simpl.
  destruct (PyDict.get String.eqb (contents m) (mem_abspath src))
    as [c |] eqn:Hsrc; [| discriminate].
  intros [= <-]. simpl. split; [apply get_set_same | reflexivity].
Qed.

Lemma save_vocabulary_cases_witness :
  save_vocabulary stored_tokenizer "/missing" sample_world
  = (Ok PyNone,
     {| fs := fs sample_world;
        log := [("ERROR",
                 "Vocabulary path (/missing) should be a directory")]%string
     |}) /\
  save_vocabulary stored_tokenizer "/models" sample_world
  = (Ok (Tuple1 "/models/sentencepiece.bpe.model"), sample_world) /\
  save_vocabulary stored_tokenizer "/out" sample_world
  = (Ok (Tuple1 "/out/sentencepiece.bpe.model"),
     {| fs := {| dirs := ["/models"; "/out"]%string;
                 contents := [("/models/sentencepiece.bpe.model",
                               "serialized model");
                              ("/out/sentencepiece.bpe.model",
                               "serialized model")]%string |};
        log := [] |}) /\
  save_vocabulary stored_tokenizer "/out" missing_source_world
  = (Raise (OSError "No such file or directory"), missing_source_world).
Proof.
  split; [| split; [| split]].
  - apply (proj1 (save_vocabulary_cases stored_tokenizer "/missing"
                    sample_world)).
    reflexivity.
  - apply (proj1 (proj2 (save_vocabulary_cases stored_tokenizer "/models"
                           sample_world)));
      reflexivity.
  - apply (proj1 (proj2 (proj2 (save_vocabulary_cases stored_tokenizer
                                  "/out" sample_world))));
      [reflexivity | vm_compute; discriminate | reflexivity].
  - apply (proj2 (proj2 (proj2 (save_vocabulary_cases stored_tokenizer
                                  "/out" missing_source_world))));
      [reflexivity | vm_compute; discriminate | reflexivity].
Defined.

(** * Further properties of the index remapper *)

(** X1.  The two reserved tables built by the constructor are inverse to
    each other: a string is filed under an id in the token table exactly
    when the id is filed under that string in the id table. *)
Theorem reserved_tables_inverse (sp : SentencePieceProcessor) (vf : string)
    (kw : special_tokens) (t : string) (i : Z) :
  let self := __init__ sp vf kw in
  PyDict.get String.eqb (fairseq_tokens_to_ids self) t = Some i <->
  PyDict.get Z.eqb (fairseq_ids_to_tokens self) i = Some t.
Proof.
  intros self. unfold self. pose proof (sp_len_nonneg sp) as Hn.
  rewrite tokens_table, ids_table. cbn -[Z.add Z.eqb String.eqb sp_len].
  split.
  - repeat match goal with
           | |- context [String.eqb t ?s] =>
               destruct (String.eqb_spec t s) as [-> | ?];
               [intros [= <-]; decide_eqb; reflexivity |]
           end.
    discriminate.
  - decide_eqb; intros [= <-]; subst i; reflexivity.
Qed.

(** X2.  When the engine answers [PieceToId] within its own range, every
    string gets an id of the public range; a string outside the reserved
    table gets one of [1 .. len(sp_model)], so never one of the three ids
    between the engine's size and the mask; and the last id of the range is
    handed out for ["<mask>"] alone. *)
Theorem token_id_range (sp : SentencePieceProcessor) (vf : string)
    (kw : special_tokens) (token : string) :
  0 <= PieceToId sp token < sp_len sp ->
  let self := __init__ sp vf kw in
  0 <= _convert_token_to_id self token < vocab_size self /\
  (reserved_token self token = false ->
   1 <= _convert_token_to_id self token <= sp_len sp) /\
  (_convert_token_to_id self token = vocab_size self - 1 <->
   token = "<mask>"%string).
Proof.
  intros Hrange self. pose proof (sp_len_nonneg sp) as Hn.
  change (vocab_size self) with (sp_len sp + 5).
  destruct (reserved_token self token) eqn:Hres.
  - apply reserved_token_spec in Hres. simpl in Hres.
    destruct Hres as [<- | [<- | [<- | [<- | [<- | []]]]]];
      change (_convert_token_to_id self _) with 0
      || change (_convert_token_to_id self _) with 1
      || change (_convert_token_to_id self _) with 2
      || change (_convert_token_to_id self _) with 3
      || change (_convert_token_to_id self _) with (sp_len sp + 4);
      (split; [lia |]); (split; [discriminate |]);
      (split; [intros; try lia; reflexivity | intros; try discriminate; lia]).
  - unfold self. rewrite (token_to_id_offset sp vf kw token Hres).
    split; [lia |]. split; [lia |]. split; [lia |].
    intros ->. discriminate Hres.
Qed.

Lemma token_id_range_witness :
  0 <= PieceToId spm_sample "." < sp_len spm_sample /\
  0 <= _convert_token_to_id sample_tokenizer "." < vocab_size sample_tokenizer.
Proof.
  split; [vm_compute; split; [discriminate | reflexivity] |].
  apply (token_id_range spm_sample "sentencepiece.bpe.model" default_tokens
           "."%string).
  vm_compute. split; [discriminate | reflexivity].
Defined.

(** X3.  Over an engine that keeps its contract, [_convert_id_to_token]
    returns a token exactly for the reserved ids [0 .. 3], the ids
    [1 .. len(sp_model)] and the mask id [len(sp_model) + 4]; for every
    other id, negative ones and the ids between the two blocks and the mask
    included, the engine's lookup failure comes through. *)
Theorem id_to_token_domain (sp : SentencePieceProcessor) (vf : string)
    (kw : special_tokens) (i : Z) :
  engine_ok sp ->
  let self := __init__ sp vf kw in
  (exists t, _convert_id_to_token self i = Ok t) <->
  0 <= i <= 3 \/ 1 <= i <= sp_len sp \/ i = sp_len sp + 4.
Proof.
  intros Hok self. pose proof (sp_len_nonneg sp) as Hn.
  destruct (reserved_id self i) eqn:Hres.
  - pose proof (proj1 (reserved_id_spec sp vf kw i) Hres) as Hi.
    split; [intros _; lia | intros _].
    unfold reserved_id, PyDict.contains in Hres.
    unfold _convert_id_to_token.
    destruct (PyDict.get Z.eqb (fairseq_ids_to_tokens self) i) as [t |];
      [exists t; reflexivity | discriminate].
  - assert (Hi : ~ (i = 0 \/ i = 1 \/ i = 2 \/ i = 3 \/ i = sp_len sp + 4)).
    { intros Hi. apply (reserved_id_spec sp vf kw i) in Hi.
      unfold self in Hres. congruence. }
    unfold self. rewrite (id_to_token_offset sp vf kw i Hres).
    rewrite (id_range sp Hok (i - 1)). lia.
Qed.

Lemma id_to_token_domain_witness :
  engine_ok spm_sample /\
  ((exists t, _convert_id_to_token sample_tokenizer 12 = Ok t) <->
   0 <= 12 <= 3 \/ 1 <= 12 <= sp_len spm_sample \/
   12 = sp_len spm_sample + 4).
Proof.
  split; [exact spm_sample_ok |].
  exact (id_to_token_domain spm_sample "sentencepiece.bpe.model"
           default_tokens 12 spm_sample_ok).
Defined.

(** A reserved string leads to its id and back. *)
Lemma reserved_token_roundtrip (sp : SentencePieceProcessor) (vf : string)
    (kw : special_tokens) (t : string) :
  let self := __init__ sp vf kw in
  reserved_token self t = true ->
  _convert_id_to_token self (_convert_token_to_id self t) = Ok t.
Proof.
  intros self Hres. pose proof (sp_len_nonneg sp) as Hn.
  apply reserved_token_spec in Hres. simpl in Hres.
  unfold _convert_id_to_token, self. rewrite ids_table.
  destruct Hres as [<- | [<- | [<- | [<- | [<- | []]]]]];
    change (_convert_token_to_id (__init__ sp vf kw) _) with 0
    || change (_convert_token_to_id (__init__ sp vf kw) _) with 1
    || change (_convert_token_to_id (__init__ sp vf kw) _) with 2
    || change (_convert_token_to_id (__init__ sp vf kw) _) with 3
    || change (_convert_token_to_id (__init__ sp vf kw) _)
         with (sp_len sp + 4);
    cbn -[Z.add Z.eqb sp_len]; decide_eqb; reflexivity.
Qed.

(** A piece of an aligned engine that is not a reserved string leads to
    its id and back. *)
Lemma piece_roundtrip (sp : SentencePieceProcessor) (vf : string)
    (kw : special_tokens) (p : string) (k : Z) :
  engine_ok sp -> fairseq_aligned sp ->
  let self := __init__ sp vf kw in
  IdToPiece sp k = Ok p ->
  reserved_token self p = false ->
  _convert_id_to_token self (_convert_token_to_id self p) = Ok p.
Proof.
  intros Hok Hal self Hk Hp.
  assert (Hge : 3 <= k)
    by (apply (aligned_piece_slot sp vf kw Hok k p Hal Hk); exact Hp).
  assert (Hrange : 0 <= k < sp_len sp) by (apply (id_range sp Hok); eauto).
  unfold self. rewrite (token_to_id_offset sp vf kw p Hp).
  rewrite (piece_id sp Hok k p Hk).
  unfold _convert_id_to_token. rewrite ids_table_miss by lia.
  replace (k + 1 - fairseq_offset (__init__ sp vf kw)) with k
    by (simpl; lia).
  exact Hk.
Qed.

(** X4.  Over an aligned engine no two tokens of the vocabulary share a
    public id: among the reserved strings and the engine's pieces,
    [_convert_token_to_id] is injective. *)
Theorem token_to_id_injective (sp : SentencePieceProcessor) (vf : string)
    (kw : special_tokens) (p q : string) :
  engine_ok sp -> fairseq_aligned sp ->
  let self := __init__ sp vf kw in
  (reserved_token self p = true \/ exists k, IdToPiece sp k = Ok p) ->
  (reserved_token self q = true \/ exists k, IdToPiece sp k = Ok q) ->
  _convert_token_to_id self p = _convert_token_to_id self q ->
  p = q.
Proof.
  intros Hok Hal self Hp Hq Heq.
  assert (Hback : forall t,
             (reserved_token self t = true \/ exists k, IdToPiece sp k = Ok t) ->
             _convert_id_to_token self (_convert_token_to_id self t) = Ok t).
  { intros t Ht.
    destruct (reserved_token self t) eqn:Hres.
    - apply reserved_token_roundtrip. exact Hres.
    - destruct Ht as [Ht | [k Hk]]; [discriminate |].
      apply (piece_roundtrip sp vf kw t k Hok Hal Hk Hres). }
  pose proof (Hback p Hp) as Hbp. pose proof (Hback q Hq) as Hbq.
  rewrite Heq in Hbp. congruence.
Qed.

Lemma token_to_id_injective_witness :
  engine_ok spm_sample /\ fairseq_aligned spm_sample /\
  _convert_token_to_id sample_tokenizer "s"
  = _convert_token_to_id sample_tokenizer "s" /\
  "s"%string = "s"%string.
Proof.
  split; [exact spm_sample_ok |]. split; [exact spm_sample_aligned |].
  split; [reflexivity |].
  apply (token_to_id_injective spm_sample "sentencepiece.bpe.model"
           default_tokens "s"%string "s"%string
           spm_sample_ok spm_sample_aligned).
  - right. exists 6. reflexivity.
  - right. exists 6. reflexivity.
  - reflexivity.
Defined.

(** * Further properties of the sequence builder *)

Lemma existsb_eqb_in (x : Z) (l : list Z) :
  existsb (Z.eqb x) l = true <-> In x l.
Proof.
  rewrite existsb_exists. split.
  - intros [y [Hy Heq]]. apply Z.eqb_eq in Heq. now subst.
  - intros Hx. exists x. split; [exact Hx | apply Z.eqb_refl].
Qed.

Lemma Forall_bit_app (l1 l2 : list Z) :
  Forall (fun x => x = 0 \/ x = 1) l1 ->
  Forall (fun x => x = 0 \/ x = 1) l2 ->
  Forall (fun x => x = 0 \/ x = 1) (l1 ++ l2).
Proof. intros H1 H2. apply Forall_app. now split. Qed.

Lemma Forall_bit_repeat (n : nat) :
  Forall (fun x => x = 0 \/ x = 1) (repeat 0 n).
Proof. induction n; simpl; constructor; auto. Qed.

(** X5.  [get_special_tokens_mask] raises only in the one rejected
    combination: with a single sequence, or without the flag, it returns a
    mask; and every mask it returns consists of zeros and ones. *)
Theorem special_tokens_mask_binary (self : XLMRobertaTokenizer)
    (A : list Z) (B : option (list Z)) (already : bool) :
  (already = false \/ B = None ->
   exists mask, get_special_tokens_mask self A B already = Ok mask) /\
  (forall mask,
     get_special_tokens_mask self A B already = Ok mask ->
     Forall (fun x => x = 0 \/ x = 1) mask).
Proof.
  unfold get_special_tokens_mask. split.
  - intros [-> | ->]; [destruct B | destruct already]; eauto.
  - intros mask.
    destruct already, B as [B |]; try discriminate; intros [= <-];
      rewrite ?list_mul_singleton.
    + apply Forall_map, Forall_forall. intros x _. cbv beta.
      match goal with
      | |- context [if ?c then _ else _] => destruct c
      end; auto.
    + repeat first [ apply Forall_bit_repeat | apply Forall_nil
                   | apply Forall_cons; [auto |] | apply Forall_bit_app ].
    + repeat first [ apply Forall_bit_repeat | apply Forall_nil
                   | apply Forall_cons; [auto |] | apply Forall_bit_app ].
Qed.

Lemma special_tokens_mask_binary_witness :
  exists mask,
    get_special_tokens_mask sample_tokenizer [0; 7; 2] None true = Ok mask /\
    Forall (fun x => x = 0 \/ x = 1) mask.
Proof.
  destruct (special_tokens_mask_binary sample_tokenizer [0; 7; 2] None true)
    as [Hreturns Hbits].
  destruct (Hreturns (or_intror eq_refl)) as [mask Hmask].
  exists mask. split; [exact Hmask | exact (Hbits mask Hmask)].
Defined.

Section TaggedMask.
Variable self : XLMRobertaTokenizer.

Let is_special (x : Z) : Z :=
  if existsb (Z.eqb x) [sep_token_id self; cls_token_id self] then 1 else 0.

Lemma is_special_cls : is_special (cls_token_id self) = 1.
Proof.
  unfold is_special.
  rewrite (proj2 (existsb_eqb_in _ _)); [reflexivity | simpl; auto].
Qed.

Lemma is_special_sep : is_special (sep_token_id self) = 1.
Proof.
  unfold is_special.
  rewrite (proj2 (existsb_eqb_in _ _)); [reflexivity | simpl; auto].
Qed.

Lemma map_is_special_plain (l : list Z) :
  ~ In (cls_token_id self) l -> ~ In (sep_token_id self) l ->
  map is_special l = repeat 0 (List.length l).
Proof.
  induction l as [| x l IH]; simpl; intros Hcls Hsep; [reflexivity |].
  rewrite IH by tauto. f_equal. unfold is_special.
  destruct (existsb (Z.eqb x) [sep_token_id self; cls_token_id self]) eqn:Hx;
    [| reflexivity].
  apply existsb_eqb_in in Hx. simpl in Hx.
  destruct Hx as [<- | [<- | []]]; tauto.
Qed.

(** X6.  Marking the special tokens in a built input gives the mask that is
    computed from the bare sequences, provided these hold neither the
    begin-of-sequence nor the end-of-sequence id, as the docstring asks. *)
Theorem tagged_mask_of_built_input (A B : list Z) :
  ~ In (cls_token_id self) A -> ~ In (sep_token_id self) A ->
  ~ In (cls_token_id self) B -> ~ In (sep_token_id self) B ->
  get_special_tokens_mask self
    (build_inputs_with_special_tokens self A None) None true
  = get_special_tokens_mask self A None false /\
  get_special_tokens_mask self
    (build_inputs_with_special_tokens self A (Some B)) None true
  = get_special_tokens_mask self A (Some B) false.
Proof.
  intros HcA HsA HcB HsB.
  unfold get_special_tokens_mask, build_inputs_with_special_tokens.
  fold is_special. rewrite !list_mul_singleton, !map_app. simpl map.
  rewrite is_special_cls, is_special_sep.
  rewrite (map_is_special_plain A HcA HsA), (map_is_special_plain B HcB HsB).
  split; reflexivity.
Qed.
End TaggedMask.

Lemma tagged_mask_of_built_input_witness :
  get_special_tokens_mask sample_tokenizer
    (build_inputs_with_special_tokens sample_tokenizer [10; 11]
       (Some [20; 21; 22])) None true
  = get_special_tokens_mask sample_tokenizer [10; 11] (Some [20; 21; 22])
      false.
Proof.
  apply (tagged_mask_of_built_input sample_tokenizer [10; 11] [20; 21; 22]);
    simpl; intros H;
    repeat (destruct H as [H | H]; [discriminate H |]); exact H.
Defined.

(** A sequence that holds the end-of-sequence id is marked at that place
    when tagged, and not when the mask is computed from the bare sequence. *)
Example tagged_mask_differs_on_special_content :
  get_special_tokens_mask sample_tokenizer
    (build_inputs_with_special_tokens sample_tokenizer [2] None) None true
  = Ok [1; 1; 1] /\
  get_special_tokens_mask sample_tokenizer [2] None false = Ok [1; 0; 1].
Proof. split; reflexivity. Qed.

(** X7.  For a single sequence and for a pair alike, the segment mask and
    the special-token mask are as long as the built input, so the three
    lists line up position by position. *)
Theorem builder_outputs_aligned (self : XLMRobertaTokenizer) (A : list Z)
    (B : option (list Z)) :
  List.length (create_token_type_ids_from_sequences self A B)
  = List.length (build_inputs_with_special_tokens self A B) /\
  exists mask,
    get_special_tokens_mask self A B false = Ok mask /\
    List.length mask
    = List.length (build_inputs_with_special_tokens self A B).
Proof.
  unfold create_token_type_ids_from_sequences, get_special_tokens_mask,
    build_inputs_with_special_tokens.
  destruct B as [B |]; rewrite ?list_mul_singleton.
  - split; [list_len |]. eexists. split; [reflexivity | list_len].
  - split; [list_len |]. eexists. split; [reflexivity | list_len].
Qed.

(** X8.  The two length limits set by the constructor are exact: a single
    sequence fits [max_len] once built if and only if it is no longer than
    [max_len_single_sentence], and a pair if and only if the two sequences
    together are no longer than [max_len_sentences_pair]. *)
Theorem length_limits_exact (sp : SentencePieceProcessor) (vf : string)
    (kw : special_tokens) (A B : list Z) :
  let self := __init__ sp vf kw in
  (Z.of_nat (List.length (build_inputs_with_special_tokens self A None))
   <= max_len self
   <-> Z.of_nat (List.length A) <= max_len_single_sentence self) /\
  (Z.of_nat (List.length (build_inputs_with_special_tokens self A (Some B)))
   <= max_len self
   <-> Z.of_nat (List.length A + List.length B)
       <= max_len_sentences_pair self).
Proof.
  intros self.
  change (max_len self) with 512.
  change (max_len_single_sentence self) with 510.
  change (max_len_sentences_pair self) with 508.
  unfold build_inputs_with_special_tokens.
  split; repeat (progress (simpl List.length; rewrite ?length_app)); lia.
Qed.

Lemma repeat_succ_app {T : Type} (x : T) (n : nat) (l : list T) :
  repeat x (S n) ++ l = repeat x n ++ x :: l.
Proof.
  change (repeat x (S n)) with (x :: repeat x n).
  rewrite repeat_cons, <- app_assoc. reflexivity.
Qed.

(** X9.  A pair extends the single sequence: the built input, the segment
    mask and the special-token mask of [A, B] each start with what [A]
    alone gives, followed by the block of [B].  An empty [B] still adds its
    block, so an empty second sequence is not the same as none. *)
Theorem pair_extends_single (self : XLMRobertaTokenizer) (A B : list Z) :
  build_inputs_with_special_tokens self A (Some B)
  = build_inputs_with_special_tokens self A None
    ++ sep_token_id self :: B ++ [sep_token_id self] /\
  create_token_type_ids_from_sequences self A (Some B)
  = create_token_type_ids_from_sequences self A None
    ++ 0 :: repeat 1 (List.length B + 1) /\
  (exists single pair,
     get_special_tokens_mask self A None false = Ok single /\
     get_special_tokens_mask self A (Some B) false = Ok pair /\
     pair = single ++ 1 :: repeat 0 (List.length B) ++ [1]) /\
  build_inputs_with_special_tokens self A (Some [])
  <> build_inputs_with_special_tokens self A None.
Proof.
  unfold build_inputs_with_special_tokens,
    create_token_type_ids_from_sequences, get_special_tokens_mask.
  rewrite !list_mul_singleton. repeat split.
  - simpl. rewrite <- !app_assoc. reflexivity.
  - assert (Hlen : List.length ([cls_token_id self] ++ A
                                ++ [sep_token_id self] ++ [sep_token_id self])
                   = S (List.length ([cls_token_id self] ++ A
                                       ++ [sep_token_id self])))
      by list_len.
    rewrite Hlen, (length_app B), repeat_succ_app. reflexivity.
  - do 2 eexists. split; [reflexivity |]. split; [reflexivity |].
    simpl. rewrite <- ?app_assoc. reflexivity.
  - intros H. apply (f_equal (@List.length Z)) in H.
    revert H. list_len.
Qed.

Lemma split_at_first {T : Type} (x : T) (l1 l2 r1 r2 : list T) :
  ~ In x l1 -> ~ In x l2 ->
  l1 ++ x :: r1 = l2 ++ x :: r2 ->
  l1 = l2 /\ r1 = r2.
Proof.
  revert l2. induction l1 as [| a l1 IH]; intros [| b l2] H1 H2 Heq;
    simpl in *.
  - injection Heq as <-. auto.
  - injection Heq as <- _. tauto.
  - injection Heq as -> _. tauto.
  - injection Heq as <- Heq.
    destruct (IH l2) as [<- <-]; auto.
Qed.

(** X10.  The sequences can be read back from a built input: a single
    sequence always, and a pair whenever the first sequence does not hold
    the end-of-sequence id (two pairs with such first sequences and the same
    built input are the same pair). *)
Theorem build_inputs_injective (self : XLMRobertaTokenizer)
    (A A' B B' : list Z) :
  (build_inputs_with_special_tokens self A None
   = build_inputs_with_special_tokens self A' None -> A = A') /\
  (~ In (sep_token_id self) A -> ~ In (sep_token_id self) A' ->
   build_inputs_with_special_tokens self A (Some B)
   = build_inputs_with_special_tokens self A' (Some B') ->
   A = A' /\ B = B').
Proof.
  unfold build_inputs_with_special_tokens. split.
  - simpl. intros [= H]. apply app_inj_tail in H. tauto.
  - simpl. intros HA HA' [= H].
    apply split_at_first in H as [<- H]; auto.
    injection H as H. apply app_inj_tail in H. tauto.
Qed.

Lemma build_inputs_injective_witness :
  build_inputs_with_special_tokens sample_tokenizer [10; 11] (Some [20])
  = build_inputs_with_special_tokens sample_tokenizer [10; 11] (Some [20]) /\
  ([10; 11] = [10; 11] /\ [20] = [20]).
Proof.
  split; [reflexivity |].
  apply (proj2 (build_inputs_injective sample_tokenizer
                  [10; 11] [10; 11] [20] [20]));
    try reflexivity;
    simpl; intros H;
    repeat (destruct H as [H | H]; [discriminate H |]); exact H.
Defined.

(** With the end-of-sequence id inside the first sequence the pair layout
    is ambiguous. *)
Example build_inputs_ambiguous :
  build_inputs_with_special_tokens sample_tokenizer [2; 2] (Some [])
  = build_inputs_with_special_tokens sample_tokenizer [] (Some [2; 2]).
Proof. reflexivity. Qed.

(** X11.  The segment mask and the special-token mask of bare sequences
    depend on the lengths of the sequences only: neither the ids in them
    nor the tokenizer's vocabulary and special ids matter. *)
Theorem masks_depend_on_lengths (self self' : XLMRobertaTokenizer)
    (A A' : list Z) (B B' : option (list Z)) :
  List.length A = List.length A' ->
  option_map (@List.length Z) B = option_map (@List.length Z) B' ->
  create_token_type_ids_from_sequences self A B
  = create_token_type_ids_from_sequences self' A' B' /\
  get_special_tokens_mask self A B false
  = get_special_tokens_mask self' A' B' false.
Proof.
  intros HA HB.
  unfold create_token_type_ids_from_sequences, get_special_tokens_mask.
  destruct B as [B |], B' as [B' |]; simpl in HB; try discriminate.
  - injection HB as HB.
    repeat (rewrite ?length_app; simpl List.length). rewrite HA, HB.
    split; reflexivity.
  - repeat (rewrite ?length_app; simpl List.length). rewrite HA.
    split; reflexivity.
Qed.

Lemma masks_depend_on_lengths_witness :
  create_token_type_ids_from_sequences sample_tokenizer [10; 11] (Some [20])
  = create_token_type_ids_from_sequences stored_tokenizer [7; 2] (Some [0])
  /\
  get_special_tokens_mask sample_tokenizer [10; 11] (Some [20]) false
  = get_special_tokens_mask stored_tokenizer [7; 2] (Some [0]) false.
Proof.
  apply (masks_depend_on_lengths sample_tokenizer stored_tokenizer
           [10; 11] [7; 2] (Some [20]) (Some [0])); reflexivity.
Defined.

(** * Further properties of vocabulary persistence *)

(** X12.  The outcome of [save_vocabulary] tells what happened: it returns
    [None] exactly when the path is not a directory; it raises exactly when
    the path is a directory, source and destination differ and the copy
    raised, the copy's exception coming through; a returned tuple always
    holds the directory followed by the fixed file name, with a [/] in
    between unless the directory is empty or ends in one; and on a
    directory nothing is logged. *)
Theorem save_vocabulary_outcome `{OS} (self : XLMRobertaTokenizer)
    (d : string) (w : World) :
  let out := os_path_join d VOCAB_FILES_NAMES_vocab_file in
  let r := save_vocabulary self d w in
  (fst r = Ok PyNone <-> os_path_isdir (fs w) d = false) /\
  (forall e,
     fst r = Raise e <->
     os_path_isdir (fs w) d = true /\
     os_path_abspath (fs w) (vocab_file self) <> os_path_abspath (fs w) out /\
     fst (copyfile (vocab_file self) out (fs w)) = Raise e) /\
  (forall p,
     fst r = Ok (Tuple1 p) ->
     p = (d ++ (if (String.eqb d "" || ends_with_sep d)%bool
                then "" else "/")
            ++ "sentencepiece.bpe.model")%string) /\
  (os_path_isdir (fs w) d = true -> log (snd r) = log w).
Proof.
  intros out r.
  assert (Hout : out = (d ++ (if (String.eqb d "" || ends_with_sep d)%bool
                              then "" else "/")
                          ++ "sentencepiece.bpe.model")%string).
  { unfold out, os_path_join, VOCAB_FILES_NAMES_vocab_file.
    simpl String.prefix. cbv iota.
    destruct (String.eqb d "" || ends_with_sep d)%bool; reflexivity. }
  unfold r, save_vocabulary. fold out.
  destruct (os_path_isdir (fs w) d); simpl negb; cbv iota;
    [destruct (String.eqb_spec (os_path_abspath (fs w) (vocab_file self))
                               (os_path_abspath (fs w) out))
       as [Hsame | Hdiff];
     simpl negb; cbv iota;
     [| destruct (copyfile (vocab_file self) out (fs w)) as [[u | e'] fs']]
    |];
    simpl; repeat split; intros;
    repeat match goal with
           | Hc : _ /\ _ |- _ => destruct Hc
           end;
    congruence.
Qed.

Lemma save_vocabulary_outcome_witness :
  fst (save_vocabulary stored_tokenizer "/out" sample_world)
  = Ok (Tuple1 "/out/sentencepiece.bpe.model") /\
  "/out/sentencepiece.bpe.model"%string
  = ("/out" ++ (if (String.eqb "/out" "" || ends_with_sep "/out")%bool
                then "" else "/")
       ++ "sentencepiece.bpe.model")%string.
Proof.
  split; [reflexivity |].
  apply (proj1 (proj2 (proj2 (save_vocabulary_outcome stored_tokenizer
                                "/out" sample_world)))
           "/out/sentencepiece.bpe.model"%string).
  reflexivity.
Defined.
